(** * A shallow embedding of [sba.py]: prop probabilities and parlay search.

    The Python class [ComprehensiveSportsAnalyzer] is translated function by
    function.  Conventions of the embedding:

    - A Python / NumPy float is an element of [npfloat]: a real number, or one
      of the IEEE special values [+inf], [-inf], [nan] that NumPy produces on a
      division by zero or an invalid operation (NumPy warns there and goes
      on).  Rounding and the sign of zero are not represented.
    - [np.mean] and [np.std] are the mean and the root mean squared
      deviation.  [np.polyfit(.., 1)[0]] is the least-squares slope from the
      normal equations for two points or more, and fails on a single point,
      where the system is singular.  The module [numpy] has no attribute
      [erf]: the lookup [np.erf] raises [AttributeError].  The global random
      generator behind [_get_historical_data] is a state threaded through
      the calls.
    - A Python exception is a value of [exn]; a function that can raise
      returns a [Result].
    - A Python dict whose key names matter is an association list in
      insertion order; a dict with a fixed set of keys is a record. *)

From Stdlib Require Import Reals Lra List String ZArith Lia Bool.
From Stdlib Require Import Finite.
Import ListNotations.
Local Open Scope string_scope.
Local Open Scope list_scope.

(** ** Floating-point values *)

Module NpFloat.

Local Open Scope R_scope.

Inductive npfloat : Type :=
| Fin (r : R)
| PInf
| NInf
| NaN.

(** The infinity carrying the sign of [r]; [nan] when [r] is zero. *)
Definition signed_inf (r : R) : npfloat :=
  match total_order_T r 0 with
  | inleft (left _) => NInf
  | inleft (right _) => NaN
  | inright _ => PInf
  end.

Definition fopp (x : npfloat) : npfloat :=
  match x with
  | Fin a => Fin (- a)
  | PInf => NInf
  | NInf => PInf
  | NaN => NaN
  end.

Definition fadd (x y : npfloat) : npfloat :=
  match x, y with
  | Fin a, Fin b => Fin (a + b)
  | NaN, _ | _, NaN => NaN
  | PInf, NInf | NInf, PInf => NaN
  | PInf, _ | _, PInf => PInf
  | NInf, _ | _, NInf => NInf
  end.

Definition fsub (x y : npfloat) : npfloat := fadd x (fopp y).

Definition fmul (x y : npfloat) : npfloat :=
  match x, y with
  | Fin a, Fin b => Fin (a * b)
  | NaN, _ | _, NaN => NaN
  | Fin a, PInf | PInf, Fin a => signed_inf a
  | Fin a, NInf | NInf, Fin a => signed_inf (- a)
  | PInf, PInf | NInf, NInf => PInf
  | PInf, NInf | NInf, PInf => NInf
  end.

(** [x / y] on NumPy scalars: a zero divisor gives an infinity, or [nan] for
    [0 / 0], together with a warning; nothing is raised. *)
Definition fdiv (x y : npfloat) : npfloat :=
  match x, y with
  | Fin a, Fin b => if Req_dec_T b 0 then signed_inf a else Fin (a / b)
  | NaN, _ | _, NaN => NaN
  | Fin _, (PInf | NInf) => Fin 0
  | PInf, Fin b => if Rlt_dec b 0 then NInf else PInf
  | NInf, Fin b => if Rlt_dec b 0 then PInf else NInf
  | (PInf | NInf), (PInf | NInf) => NaN
  end.

Definition fsqrt (x : npfloat) : npfloat :=
  match x with
  | Fin a => if Rlt_dec a 0 then NaN else Fin (sqrt a)
  | PInf => PInf
  | NInf | NaN => NaN
  end.

(** Comparisons: any comparison with [nan] is false. *)
Definition fleb (x y : npfloat) : bool :=
  match x, y with
  | NaN, _ | _, NaN => false
  | Fin a, Fin b => if Rle_dec a b then true else false
  | NInf, _ | _, PInf => true
  | _, _ => false
  end.

Definition fgeb (x y : npfloat) : bool := fleb y x.

Definition fltb (x y : npfloat) : bool :=
  match x, y with
  | NaN, _ | _, NaN => false
  | Fin a, Fin b => if Rlt_dec a b then true else false
  | NInf, NInf | PInf, PInf => false
  | NInf, _ | _, PInf => true
  | _, _ => false
  end.

Definition feqb (x y : npfloat) : bool :=
  match x, y with
  | Fin a, Fin b => if Req_dec_T a b then true else false
  | PInf, PInf | NInf, NInf => true
  | _, _ => false
  end.

(** Python's [sum]: left to right from the integer [0]. *)
Definition fsum (l : list npfloat) : npfloat := fold_left fadd l (Fin 0).

Definition of_nat (n : nat) : npfloat := Fin (INR n).

(** *** NumPy reductions used by the analyzer *)

(** [np.mean]: the sum divided by the number of elements. *)
Definition np_mean (a : list npfloat) : npfloat :=
  fdiv (fsum a) (of_nat (List.length a)).

(** [np.std] with its default [ddof = 0]: the square root of the mean of
    the squared deviations from the mean. *)
Definition np_std (a : list npfloat) : npfloat :=
  let arrmean := np_mean a in
  let x := map (fun v => fsub v arrmean) a in
  fsqrt (fdiv (fsum (map (fun d => fmul d d) x)) (of_nat (List.length a))).

(** The slope of the least-squares line through the points [(i, y_i)],
    [i = 0 .. n-1], by the normal equations. *)
Definition least_squares_slope (y : list npfloat) : npfloat :=
  let n := of_nat (List.length y) in
  let x := map of_nat (seq 0 (List.length y)) in
  let sx := fsum x in
  let sy := fsum y in
  let sxx := fsum (map (fun v => fmul v v) x) in
  let sxy := fsum (map (fun p => fmul (fst p) (snd p)) (combine x y)) in
  fdiv (fsub (fmul n sxy) (fmul sx sy)) (fsub (fmul n sxx) (fmul sx sx)).

End NpFloat.
Import NpFloat.

(** ** Exceptions *)

Inductive exn : Type :=
| KeyError (key : string)
| AttributeError (attr : string)
| ValueError (msg : string)
| TypeError (msg : string)
| LinAlgError (msg : string).

Inductive Result (A : Type) : Type :=
| Ok (a : A)
| Raise (e : exn).
Arguments Ok {A} a.
Arguments Raise {A} e.

Definition bind {A B : Type} (m : Result A) (k : A -> Result B) : Result B :=
  match m with
  | Ok a => k a
  | Raise e => Raise e
  end.

Notation "x <- m ;; k" := (bind m (fun x => k))
  (at level 61, m at next level, right associativity).
Notation "' p <- m ;; k" := (bind m (fun x => match x with p => k end))
  (at level 61, p pattern, m at next level, right associativity).

(** A [for] loop whose body may raise: the state is threaded left to right
    and the first exception ends the loop. *)
Fixpoint for_each {S A : Type} (body : S -> A -> Result S) (l : list A) (s : S)
  : Result S :=
  match l with
  | [] => Ok s
  | x :: l' => s' <- body s x ;; for_each body l' s'
  end.

(** ** NumPy calls that can raise *)

(** [np.polyfit(range(len(y)), y, 1)[0]] on finite samples.  An empty
    vector is refused; on a single point the scaled design matrix holds
    [0/0] and the least-squares solver does not converge; from two points
    on the fit is the least-squares line. *)
Definition np_polyfit_slope (y : list npfloat) : Result npfloat :=
  match y with
  | [] => Raise (TypeError "expected non-empty vector for x")
  | [_] => Raise (LinAlgError "SVD did not converge in Linear Least Squares")
  | _ :: _ :: _ => Ok (least_squares_slope y)
  end.

(** [np.erf(x)]: the module [numpy] defines no attribute [erf], so the
    lookup raises before the argument is looked at. *)
Definition np_erf (x : npfloat) : Result npfloat :=
  Raise (AttributeError "erf").

(** ** Dicts with string keys *)

Definition dict (V : Type) : Type := list (string * V).

Fixpoint dict_get {V : Type} (d : dict V) (k : string) : option V :=
  match d with
  | [] => None
  | (k', v) :: d' => if String.eqb k k' then Some v else dict_get d' k
  end.

(** [d[k]] *)
Definition dict_getitem {V : Type} (d : dict V) (k : string) : Result V :=
  match dict_get d k with
  | Some v => Ok v
  | None => Raise (KeyError k)
  end.

(** ** Data model *)

Module PropType.
Record t : Type := make {
  name : string;
  stat_key : string;
  threshold : option npfloat;
  prob_threshold : npfloat;
  alt_lines : option (list npfloat);
  category : string
}.
End PropType.

(** The dataclass constructor as the catalog calls it: [threshold] and
    [prob_threshold] keep their defaults. *)
Definition PropType_ (name stat_key : string) (alt_lines : option (list R))
    (category : string) : PropType.t :=
  PropType.make name stat_key None (Fin 0.85)
    (option_map (map Fin) alt_lines) category.

(** The dict returned by [_analyze_single_prop]; its seven keys are fixed. *)
Module Analysis.
Record t : Type := make {
  prop_name : string;
  line : npfloat;
  probability : npfloat;
  ev : npfloat;
  trend : npfloat;
  category : string;
  stat_key : string
}.
End Analysis.

(** Values stored in the dict returned by [_analyze_parlay]. *)
Inductive pyval : Type :=
| PyFloat (x : npfloat)
| PyList (names : list string).

Definition Parlay : Type := dict pyval.

(** Values of [variance_factors]: a float, or the nested dict of
    ['parlays']. *)
Inductive vf_value : Type :=
| VFloat (x : npfloat)
| VDict (d : list (Z * npfloat)).

(** ** The class constants *)

Definition SPORTS_PROPS : dict (dict (list PropType.t)) :=
  [ ("football",
     [ ("passing",
        [ PropType_ "Pass Yards" "passing_yards"
            (Some [200.5; 225.5; 250.5; 275.5; 300.5]%R) "standard";
          PropType_ "Pass TDs" "passing_tds"
            (Some [0.5; 1.5; 2.5; 3.5]%R) "standard";
          PropType_ "Pass Attempts" "pass_attempts"
            (Some [25.5; 30.5; 35.5; 40.5]%R) "standard";
          PropType_ "Pass Completions" "pass_completions"
            (Some [15.5; 20.5; 25.5; 30.5]%R) "standard";
          PropType_ "Interceptions" "interceptions"
            (Some [0.5; 1.5]%R) "standard";
          PropType_ "Longest Completion" "longest_completion"
            (Some [20.5; 25.5; 30.5; 35.5]%R) "standard";
          PropType_ "First TD Pass" "first_td_pass" None "special" ]);
       ("rushing",
        [ PropType_ "Rush Yards" "rushing_yards"
            (Some [50.5; 75.5; 100.5]%R) "standard";
          PropType_ "Rush TDs" "rushing_tds" (Some [0.5; 1.5]%R) "standard" ]);
       ("receiving",
        [ PropType_ "Rec Yards" "receiving_yards"
            (Some [50.5; 75.5; 100.5]%R) "standard";
          PropType_ "Rec TDs" "receiving_tds"
            (Some [0.5; 1.5]%R) "standard" ]) ]);
    ("basketball",
     [ ("scoring",
        [ PropType_ "Points" "points" (Some [15.5; 20.5; 25.5]%R) "standard";
          PropType_ "Rebounds" "rebounds" (Some [5.5; 7.5; 10.5]%R) "standard";
          PropType_ "Assists" "assists"
            (Some [4.5; 6.5; 8.5]%R) "standard" ]) ]) ].

(** [_initialize_correlation_matrix]: the innermost dict is keyed by ordered
    pairs (tuples) of statistic keys. *)
Definition _initialize_correlation_matrix
  : dict (dict (list ((string * string) * npfloat))) :=
  [ ("football",
     [ ("passing",
        [ (("passing_yards", "pass_attempts"), Fin 0.8%R);
          (("passing_yards", "pass_completions"), Fin 0.85%R);
          (("pass_attempts", "pass_completions"), Fin 0.9%R) ]) ]) ].

Definition _initialize_variance_factors : dict vf_value :=
  [ ("standard", VFloat (Fin 1.0%R));
    ("alt_lines", VFloat (Fin 1.2%R));
    ("special", VFloat (Fin 1.5%R));
    ("parlays",
     VDict [ (2%Z, Fin 1.1%R); (3%Z, Fin 1.2%R);
             (4%Z, Fin 1.3%R); (5%Z, Fin 1.4%R) ]) ].

(** [self.correlation_matrix] and [self.variance_factors], set by
    [__init__]. *)
Definition correlation_matrix := _initialize_correlation_matrix.
Definition variance_factors := _initialize_variance_factors.

(** Every name that attribute lookup on an analyzer instance can resolve:
    the instance attributes set by [__init__], then the names bound in the
    class body. *)
Definition analyzer_attributes : list string :=
  [ "client"; "correlation_matrix"; "variance_factors";
    "SPORTS_PROPS"; "__init__";
    "_initialize_correlation_matrix"; "_initialize_variance_factors";
    "analyze_props"; "generate_optimal_parlays";
    "_analyze_single_prop"; "_analyze_parlay"; "_get_historical_data";
    "_calculate_trend"; "_calculate_matchup_factor";
    "_calculate_probability"; "_calculate_ev";
    "_calculate_total_correlation"; "_calculate_combined_probability";
    "_calculate_combined_ev" ].

(** [self.<attr>] *)
Definition getattr_self (attr : string) : Result string :=
  if existsb (String.eqb attr) analyzer_attributes
  then Ok attr
  else Raise (AttributeError attr).

(** ** Python built-ins used by the parlay search *)

(** [range(a, b)] *)
Definition py_range (a b : Z) : list Z :=
  map (fun i => (a + Z.of_nat i)%Z) (seq 0 (Z.to_nat (b - a))).

(** The [r]-element combinations of [l], in the lexicographic order of
    positions in which [itertools.combinations] emits them. *)
Fixpoint combinations {A : Type} (l : list A) (r : nat) : list (list A) :=
  match r with
  | O => [[]]
  | S r' =>
      match l with
      | [] => []
      | x :: t => map (cons x) (combinations t r') ++ combinations t r
      end
  end.

(** [itertools.combinations(l, r)]; a negative [r] is refused. *)
Definition itertools_combinations {A : Type} (l : list A) (r : Z)
  : Result (list (list A)) :=
  if (r <? 0)%Z then Raise (ValueError "r must be non-negative")
  else Ok (combinations l (Z.to_nat r)).

(** [v >= x] for a dict value [v] and a float [x]. *)
Definition pyval_geb (v : pyval) (x : npfloat) : Result bool :=
  match v with
  | PyFloat y => Ok (fgeb y x)
  | PyList _ => Raise (TypeError "'>=' not supported between list and float")
  end.

Definition pyval_float (v : pyval) : Result npfloat :=
  match v with
  | PyFloat y => Ok y
  | PyList _ => Raise (TypeError "'<' not supported between list and float")
  end.

(** [sorted(l, key=..., reverse=True)] on precomputed keys: a stable sort
    into descending key order (equal keys keep their input order). *)
Fixpoint insert_desc {A : Type} (k : npfloat) (x : A)
    (s : list (npfloat * A)) : list (npfloat * A) :=
  match s with
  | [] => [(k, x)]
  | (k', y) :: s' =>
      if fltb k k' then (k', y) :: insert_desc k x s' else (k, x) :: s
  end.

Definition sorted_desc {A : Type} (l : list (npfloat * A)) : list A :=
  map snd (fold_right (fun kx s => insert_desc (fst kx) (snd kx) s) [] l).

(** ** The analyzer *)

Section Analyzer.

(** The player record: passed around, never inspected. *)
Variable PlayerData : Type.

(** The state of NumPy's global random generator, and one call of
    [np.random.normal(loc=50, scale=10, size=20).tolist()] on it. *)
Variable RandomState : Type.
Variable np_random_normal : RandomState -> list npfloat * RandomState.

(** What calling a resolved attribute of the instance on
    [(valid_props, min_correlation)] returns. *)
Variable call_attribute :
  string -> list Analysis.t -> npfloat -> Result (list Analysis.t).

Definition _get_historical_data (rs : RandomState) (player_data : PlayerData)
    (stat_key : string) : list npfloat * RandomState :=
  np_random_normal rs.

Definition _calculate_trend (historical : list npfloat) : Result npfloat :=
  np_polyfit_slope historical.

Definition _calculate_matchup_factor (player_data : PlayerData) : npfloat :=
  Fin 1.0.

(** The local [z_score] of [_calculate_probability]. *)
Definition z_score (adjusted_mean adjusted_std line : npfloat) : npfloat :=
  fdiv (fsub line adjusted_mean) adjusted_std.

Definition _calculate_probability (adjusted_mean adjusted_std line : npfloat)
  : Result npfloat :=
  let z_score := z_score adjusted_mean adjusted_std line in
  erf <- np_erf (fdiv z_score (fsqrt (Fin 2))) ;;
  let probability := fsub (Fin 1) (fmul (Fin 0.5) (fadd (Fin 1) erf)) in
  Ok probability.

Definition _calculate_ev (probability line : npfloat) : npfloat :=
  let odds := fdiv line (Fin 100) in
  fsub (fmul probability odds) (fsub (Fin 1) probability).

(** [std * variance_factor]: the product is defined for a float factor. *)
Definition mul_variance_factor (std : npfloat) (variance_factor : vf_value)
  : Result npfloat :=
  match variance_factor with
  | VFloat v => Ok (fmul std v)
  | VDict _ =>
      Raise (TypeError "unsupported operand type(s) for *: float and dict")
  end.

Definition _analyze_single_prop (rs : RandomState) (player_data : PlayerData)
    (prop : PropType.t) (line : npfloat) (sport category : string)
  : Result (option Analysis.t * RandomState) :=
  let '(historical, rs') :=
    _get_historical_data rs player_data (PropType.stat_key prop) in
  match historical with
  | [] => Ok (None, rs')
  | _ :: _ =>
      let mean := np_mean historical in
      let std := np_std historical in
      trend <- _calculate_trend historical ;;
      let matchup_factor := _calculate_matchup_factor player_data in
      variance_factor <-
        dict_getitem variance_factors (PropType.category prop) ;;
      let adjusted_mean := fmul (fmul mean matchup_factor) (fadd (Fin 1) trend) in
      adjusted_std <- mul_variance_factor std variance_factor ;;
      probability <- _calculate_probability adjusted_mean adjusted_std line ;;
      let ev := _calculate_ev probability line in
      Ok (Some {| Analysis.prop_name := PropType.name prop;
                  Analysis.line := line;
                  Analysis.probability := probability;
                  Analysis.ev := ev;
                  Analysis.trend := trend;
                  Analysis.category := category;
                  Analysis.stat_key := PropType.stat_key prop |}, rs')
  end.

(** [prop.alt_lines or [prop.threshold]] *)
Definition candidate_lines (prop : PropType.t) : list (option npfloat) :=
  match PropType.alt_lines prop with
  | Some (l :: ls) => map Some (l :: ls)
  | Some [] | None => [PropType.threshold prop]
  end.

(** The body of the innermost loop of [analyze_props]. *)
Definition analyze_line (player_data : PlayerData) (sport category : string)
    (prop : PropType.t) (st : list Analysis.t * RandomState)
    (line : option npfloat) : Result (list Analysis.t * RandomState) :=
  let '(valid_props, rs) := st in
  match line with
  | None => Ok (valid_props, rs)
  | Some line =>
      '(analysis, rs') <-
        _analyze_single_prop rs player_data prop line sport category ;;
      match analysis with
      | Some a =>
          if fgeb (Analysis.probability a) (PropType.prob_threshold prop)
          then Ok (valid_props ++ [a], rs')
          else Ok (valid_props, rs')
      | None => Ok (valid_props, rs')
      end
  end.

Definition analyze_props (rs : RandomState) (player_data : PlayerData)
    (sport : string) (min_correlation : npfloat)
  : Result (list Analysis.t * RandomState) :=
  categories <- dict_getitem SPORTS_PROPS sport ;;
  '(valid_props, rs') <-
    for_each
      (fun st cp =>
         for_each
           (fun st prop =>
              for_each (analyze_line player_data sport (fst cp) prop)
                (candidate_lines prop) st)
           (snd cp) st)
      categories ([], rs) ;;
  _filter_correlated_props <- getattr_self "_filter_correlated_props" ;;
  survivors <-
    call_attribute _filter_correlated_props valid_props min_correlation ;;
  Ok (survivors, rs').

End Analyzer.

(** ** Parlays *)

(** [d.get((k1, k2), default)] on a dict keyed by pairs of strings. *)
Fixpoint tuple_dict_get {V : Type} (d : list ((string * string) * V))
    (k : string * string) (default : V) : V :=
  match d with
  | [] => default
  | (k', v) :: d' =>
      if String.eqb (fst k) (fst k') && String.eqb (snd k) (snd k')
      then v
      else tuple_dict_get d' k default
  end.

(** [self.correlation_matrix['football']['passing']] *)
Definition football_passing : list ((string * string) * npfloat) :=
  match dict_get correlation_matrix "football" with
  | Some by_category =>
      match dict_get by_category "passing" with
      | Some table => table
      | None => []
      end
  | None => []
  end.

(** [p == p2] on two analysis dicts: the seven values are compared in key
    order.  (Python first checks identity, which differs from this only for
    a dict holding [nan] compared with itself.) *)
Definition analysis_eqb (p p2 : Analysis.t) : bool :=
  String.eqb (Analysis.prop_name p) (Analysis.prop_name p2)
  && feqb (Analysis.line p) (Analysis.line p2)
  && feqb (Analysis.probability p) (Analysis.probability p2)
  && feqb (Analysis.ev p) (Analysis.ev p2)
  && feqb (Analysis.trend p) (Analysis.trend p2)
  && String.eqb (Analysis.category p) (Analysis.category p2)
  && String.eqb (Analysis.stat_key p) (Analysis.stat_key p2).

Definition _calculate_total_correlation (props : list Analysis.t) : npfloat :=
  fsum
    (flat_map
       (fun p =>
          map
            (fun p2 =>
               tuple_dict_get football_passing
                 (Analysis.stat_key p, Analysis.stat_key p2) (Fin 0))
            (filter (fun p2 => negb (analysis_eqb p p2)) props))
       props).

Definition _calculate_combined_probability (individual_probs : list npfloat)
    (total_correlation : npfloat) : npfloat :=
  let combined := fold_left fmul individual_probs (Fin 1.0) in
  fmul combined (fadd (Fin 1) total_correlation).

Definition _calculate_combined_ev (props : list Analysis.t) : npfloat :=
  fsum (map Analysis.ev props).

Definition _analyze_parlay (props : list Analysis.t) : Parlay :=
  let total_correlation := _calculate_total_correlation props in
  let individual_probs := map Analysis.probability props in
  let combined_probability :=
    _calculate_combined_probability individual_probs total_correlation in
  let ev := _calculate_combined_ev props in
  [ ("combined_probability", PyFloat combined_probability);
    ("ev", PyFloat ev);
    ("props", PyList (map Analysis.prop_name props)) ].

(** The body of the inner loop of [generate_optimal_parlays]. *)
Definition consider_combo (min_probability : npfloat) (parlays : list Parlay)
    (combo : list Analysis.t) : Result (list Parlay) :=
  let parlay := _analyze_parlay combo in
  p <- dict_getitem parlay "probability" ;;
  keep <- pyval_geb p min_probability ;;
  if keep then Ok (parlays ++ [parlay]) else Ok parlays.

(** The keys [x['ev']] of the final sort. *)
Fixpoint sort_keys (parlays : list Parlay) : Result (list npfloat) :=
  match parlays with
  | [] => Ok []
  | x :: rest =>
      v <- dict_getitem x "ev" ;;
      k <- pyval_float v ;;
      ks <- sort_keys rest ;;
      Ok (k :: ks)
  end.

Definition generate_optimal_parlays (valid_props : list Analysis.t)
    (min_picks max_picks : Z) (min_probability : npfloat)
  : Result (list Parlay) :=
  parlays <-
    for_each
      (fun parlays n =>
         combos <- itertools_combinations valid_props n ;;
         for_each (consider_combo min_probability) combos parlays)
      (py_range min_picks (max_picks + 1)) [] ;;
  keys <- sort_keys parlays ;;
  Ok (sorted_desc (combine keys parlays)).

(** ** The specification's formulas, over the reals

    These definitions follow the words of the specification; the theorems
    below compare them with the functions translated from the code. *)

Module Spec.

Local Open Scope R_scope.

Definition Rsum (l : list R) : R := fold_right Rplus 0 l.

Definition Rproduct (l : list R) : R := fold_right Rmult 1 l.

(** Arithmetic mean of the samples. *)
Definition arithmetic_mean (samples : list R) : R :=
  Rsum samples / INR (List.length samples).

(** Population standard deviation. *)
Definition population_std (samples : list R) : R :=
  let mu := arithmetic_mean samples in
  sqrt (Rsum (map (fun x => (x - mu) * (x - mu)) samples)
        / INR (List.length samples)).

(** Slope of the ordinary-least-squares line of sample value against the
    0-based sample index. *)
Definition ols_slope (samples : list R) : R :=
  let n := INR (List.length samples) in
  let idx := map INR (seq 0 (List.length samples)) in
  let sx := Rsum idx in
  let sy := Rsum samples in
  let sxx := Rsum (map (fun i => i * i) idx) in
  let sxy := Rsum (map (fun p => fst p * snd p) (combine idx samples)) in
  (n * sxy - sx * sy) / (n * sxx - sx * sx).

Definition adjusted_std (samples : list R) (variance_factor : R) : R :=
  population_std samples * variance_factor.

Definition expected_value (probability line : R) : R :=
  probability * (line / 100) - (1 - probability).

(** The coefficient recorded for an unordered pair of statistic keys: the
    entry stored under either orientation of the pair, [0] when there is
    none. *)
Fixpoint recorded_coefficient (table : list ((string * string) * npfloat))
    (k1 k2 : string) : npfloat :=
  match table with
  | [] => Fin 0
  | ((a, b), c) :: table' =>
      if (String.eqb k1 a && String.eqb k2 b)
         || (String.eqb k1 b && String.eqb k2 a)
      then c
      else recorded_coefficient table' k1 k2
  end.

(** The legs of a combination with their positions. *)
Definition indexed {A : Type} (l : list A) : list (nat * A) :=
  combine (seq 0 (List.length l)) l.

(** All ordered pairs of distinct legs: legs at different positions. *)
Definition ordered_pairs {A : Type} (l : list A) : list (A * A) :=
  flat_map
    (fun ip =>
       map (fun jp => (snd ip, snd jp))
         (filter (fun jp => negb (Nat.eqb (fst ip) (fst jp))) (indexed l)))
    (indexed l).

(** Total correlation in the specification's words: every ordered pair of
    distinct legs contributes the coefficient recorded for its pair of
    keys, so an unordered pair with an entry is counted once per order. *)
Definition total_correlation (legs : list Analysis.t) : npfloat :=
  fsum
    (map
       (fun pq =>
          recorded_coefficient football_passing
            (Analysis.stat_key (fst pq)) (Analysis.stat_key (snd pq)))
       (ordered_pairs legs)).

(** Total correlation as amended: every ordered pair of distinct legs
    contributes the entry stored under that order of its keys. *)
Definition ordered_total_correlation (legs : list Analysis.t) : npfloat :=
  fsum
    (map
       (fun pq =>
          tuple_dict_get football_passing
            (Analysis.stat_key (fst pq), Analysis.stat_key (snd pq)) (Fin 0))
       (ordered_pairs legs)).

End Spec.

(** A combination is drawn without repetition from a list when it keeps
    some of its positions, in order. *)
Inductive Subseq {A : Type} : list A -> list A -> Prop :=
| Subseq_nil : Subseq [] []
| Subseq_take x s l : Subseq s l -> Subseq (x :: s) (x :: l)
| Subseq_skip x s l : Subseq s l -> Subseq s (x :: l).

(** The categories under which [variance_factors] stores a float. *)
Definition float_category (c : string) : Prop :=
  c = "standard" \/ c = "alt_lines" \/ c = "special".

(** Sums of the sample indices [0 .. n-1] and of their squares, as they
    occur in the normal equations. *)
Definition index_sum (n : nat) : R := Spec.Rsum (map INR (seq 0 n)).

Definition index_square_sum (n : nat) : R :=
  Spec.Rsum (map (fun i => (i * i)%R) (map INR (seq 0 n))).

(** ** Sample inputs *)

(** A generator whose every draw is the given sample list. *)
Definition constant_feed (samples : list npfloat) (rs : unit)
  : list npfloat * unit := (samples, rs).

Definition points_prop : PropType.t :=
  PropType_ "Points" "points" (Some [15.5; 20.5; 25.5]%R) "standard".


Definition yards_leg : Analysis.t :=
  {| Analysis.prop_name := "Pass Yards";
     Analysis.line := Fin 200.5;
     Analysis.probability := Fin 0.9;
     Analysis.ev := Fin 0.1;
     Analysis.trend := Fin 0;
     Analysis.category := "passing";
     Analysis.stat_key := "passing_yards" |}.

Definition attempts_leg : Analysis.t :=
  {| Analysis.prop_name := "Pass Attempts";
     Analysis.line := Fin 25.5;
     Analysis.probability := Fin 0.9;
     Analysis.ev := Fin 0.2;
     Analysis.trend := Fin 0;
     Analysis.category := "passing";
     Analysis.stat_key := "pass_attempts" |}.

Definition points_leg : Analysis.t :=
  {| Analysis.prop_name := "Points";
     Analysis.line := Fin 20.5;
     Analysis.probability := Fin 0.9;
     Analysis.ev := Fin 0.1;
     Analysis.trend := Fin 0;
     Analysis.category := "scoring";
     Analysis.stat_key := "points" |}.

Definition rebounds_leg : Analysis.t :=
  {| Analysis.prop_name := "Rebounds";
     Analysis.line := Fin 7.5;
     Analysis.probability := Fin 0.9;
     Analysis.ev := Fin 0.2;
     Analysis.trend := Fin 0;
     Analysis.category := "scoring";
     Analysis.stat_key := "rebounds" |}.

(** A definition whose category has no variance factor. *)
Definition uncategorised_prop : PropType.t :=
  PropType.make "Steals" "steals" None (Fin 0.85) (Some [Fin 1.5]) "defense".

(** A definition filed under the nested ['parlays'] entry. *)
Definition parlays_prop : PropType.t :=
  PropType.make "Steals" "steals" None (Fin 0.85) (Some [Fin 1.5]) "parlays".

(** ** Auxiliary notions for the further properties *)

(** The real number held by a finite float. *)
Definition finite_part (x : npfloat) : R :=
  match x with
  | Fin r => r
  | _ => 0%R
  end.

(** The table entry for an ordered pair of keys, as a real. *)
Definition coefficient (k1 k2 : string) : R :=
  finite_part (tuple_dict_get football_passing (k1, k2) (Fin 0)).

(** The statistic keys that stand first in some entry of the table. *)
Definition leading_key (k : string) : bool :=
  String.eqb k "passing_yards" || String.eqb k "pass_attempts".

(** * Properties *)

(** ** Arithmetic on finite values *)

Section FiniteArithmetic.

Local Open Scope R_scope.

Lemma fadd_0_r x : fadd x (Fin 0) = x.
Proof. destruct x; simpl; try reflexivity. f_equal. lra. Qed.

Lemma fold_left_fadd_Fin l : forall a,
  fold_left fadd (map Fin l) (Fin a) = Fin (a + Spec.Rsum l).
Proof.
  induction l as [| x l IH]; intros a; simpl.
  - f_equal. lra.
  - rewrite IH. f_equal. lra.
Qed.

Lemma fsum_Fin l : fsum (map Fin l) = Fin (Spec.Rsum l).
Proof. unfold fsum. rewrite fold_left_fadd_Fin. f_equal. lra. Qed.

Lemma fold_left_fmul_Fin l : forall a,
  fold_left fmul (map Fin l) (Fin a) = Fin (a * Spec.Rproduct l).
Proof.
  induction l as [| x l IH]; intros a; simpl.
  - f_equal. lra.
  - rewrite IH. f_equal. lra.
Qed.

Lemma fdiv_Fin a b : b <> 0 -> fdiv (Fin a) (Fin b) = Fin (a / b).
Proof.
  intros H. simpl. destruct (Req_dec_T b 0); [contradiction | reflexivity].
Qed.

Lemma fsqrt_Fin a : 0 <= a -> fsqrt (Fin a) = Fin (sqrt a).
Proof. intros H. simpl. destruct (Rlt_dec a 0); [lra | reflexivity]. Qed.

Lemma INR_length_nonzero {A : Type} (l : list A) :
  l <> [] -> INR (List.length l) <> 0.
Proof.
  intros H. destruct l as [| x l]; [contradiction |].
  apply not_0_INR. simpl. discriminate.
Qed.

(** *** [np.mean] and [np.std] against the specification's statistics *)

Lemma np_mean_Fin l :
  l <> [] -> np_mean (map Fin l) = Fin (Spec.arithmetic_mean l).
Proof.
  intros H. unfold np_mean, Spec.arithmetic_mean, of_nat.
  rewrite fsum_Fin, length_map. apply fdiv_Fin. now apply INR_length_nonzero.
Qed.

Lemma Rsum_squares_nonneg (l : list R) :
  0 <= Spec.Rsum (map (fun d => d * d) l).
Proof. induction l as [| x l IH]; simpl; [lra | nra]. Qed.

Lemma np_std_Fin l :
  l <> [] -> np_std (map Fin l) = Fin (Spec.population_std l).
Proof.
  intros H. unfold np_std, Spec.population_std.
  rewrite (np_mean_Fin l H). unfold of_nat. rewrite length_map.
  rewrite !map_map. simpl.
  rewrite <- (map_map
                (fun x => (x - Spec.arithmetic_mean l)
                          * (x - Spec.arithmetic_mean l)) Fin).
  rewrite fsum_Fin. rewrite fdiv_Fin by now apply INR_length_nonzero.
  apply fsqrt_Fin.
  pose proof (INR_length_nonzero l H) as Hn.
  pose proof (pos_INR (List.length l)) as Hp.
  apply Rmult_le_pos.
  - rewrite <- (map_map (fun x => x - Spec.arithmetic_mean l) (fun d => d * d)).
    apply Rsum_squares_nonneg.
  - left. apply Rinv_0_lt_compat. lra.
Qed.

(** *** The least-squares slope *)

Lemma Rsum_app l1 l2 : Spec.Rsum (l1 ++ l2) = Spec.Rsum l1 + Spec.Rsum l2.
Proof. induction l1 as [| x l1 IH]; simpl; [lra | rewrite IH; lra]. Qed.

Lemma index_sum_closed n : 2 * index_sum n = INR n * (INR n - 1).
Proof.
  unfold index_sum. induction n as [| n IH].
  - simpl. lra.
  - rewrite seq_S, map_app, Rsum_app. simpl seq. simpl map. simpl Spec.Rsum.
    rewrite S_INR. lra.
Qed.

Lemma index_square_sum_closed n :
  6 * index_square_sum n = (INR n - 1) * INR n * (2 * INR n - 1).
Proof.
  unfold index_square_sum. induction n as [| n IH].
  - simpl. lra.
  - rewrite seq_S, !map_app, Rsum_app. simpl seq. simpl map. simpl Spec.Rsum.
    rewrite S_INR. lra.
Qed.

(** With two points or more the normal equations are regular. *)
Lemma ols_denominator_pos n :
  (2 <= n)%nat ->
  0 < INR n * index_square_sum n - index_sum n * index_sum n.
Proof.
  intros H. apply le_INR in H. simpl in H.
  pose proof (index_sum_closed n) as H1.
  pose proof (index_square_sum_closed n) as H2.
  set (m := INR n) in *. set (a := index_sum n) in *.
  set (b := index_square_sum n) in *.
  assert (E : 12 * (m * b - a * a) = m * m * (m - 1) * (m + 1)).
  { replace (12 * (m * b - a * a))
      with (2 * m * (6 * b) - 3 * (2 * a) * (2 * a)) by ring.
    rewrite H1, H2. ring. }
  assert (P : 0 < m * m * (m - 1) * (m + 1)).
  { assert (0 < m) by lra. assert (0 < m - 1) by lra. assert (0 < m + 1) by lra.
    repeat apply Rmult_lt_0_compat; assumption. }
  lra.
Qed.

Lemma combine_map_Fin (xs ys : list R) :
  map (fun p => fmul (fst p) (snd p)) (combine (map Fin xs) (map Fin ys))
  = map Fin (map (fun p => fst p * snd p) (combine xs ys)).
Proof.
  revert ys. induction xs as [| x xs IH]; intros [| y ys]; simpl;
    try reflexivity.
  now rewrite IH.
Qed.

Lemma least_squares_slope_Fin l :
  (2 <= List.length l)%nat ->
  least_squares_slope (map Fin l) = Fin (Spec.ols_slope l).
Proof.
  intros H. unfold least_squares_slope, Spec.ols_slope, of_nat.
  rewrite length_map.
  rewrite <- (map_map INR Fin).
  rewrite combine_map_Fin.
  rewrite (map_map Fin (fun v => fmul v v)). simpl.
  rewrite <- (map_map (fun i => i * i) Fin (map INR _)).
  rewrite !fsum_Fin. simpl.
  pose proof (ols_denominator_pos _ H) as D.
  unfold index_sum, index_square_sum in D.
  match goal with
  | |- (if Req_dec_T ?d 0 then _ else _) = _ =>
      destruct (Req_dec_T d 0) as [E | E]
  end.
  - exfalso. lra.
  - reflexivity.
Qed.

Lemma np_polyfit_slope_Fin l :
  (2 <= List.length l)%nat ->
  np_polyfit_slope (map Fin l) = Ok (Fin (Spec.ols_slope l)).
Proof.
  intros H. rewrite <- (least_squares_slope_Fin l H).
  destruct l as [| x [| y l]]; simpl in H; try lia. reflexivity.
Qed.

End FiniteArithmetic.

(** ** The probability computation *)

Section ProbabilityModel.

Local Open Scope R_scope.

(** The lookup of [np.erf] fails whatever the arguments are. *)
Lemma calculate_probability_raises adjusted_mean adjusted_std line :
  _calculate_probability adjusted_mean adjusted_std line
  = Raise (AttributeError "erf").
Proof. reflexivity. Qed.

Lemma calculate_ev_Fin p l :
  _calculate_ev (Fin p) (Fin l) = Fin (Spec.expected_value p l).
Proof. unfold _calculate_ev. rewrite fdiv_Fin by lra. reflexivity. Qed.


(** C7.  No probability is ever computed that could be compared across
    lines: for every adjusted mean and standard deviation and every two
    lines, both calls of [_calculate_probability] end in the
    [AttributeError] of the lookup [np.erf]. *)
Theorem no_probability_to_compare adjusted_mean adjusted_std line1 line2 :
  _calculate_probability adjusted_mean adjusted_std line1
  = Raise (AttributeError "erf")
  /\ _calculate_probability adjusted_mean adjusted_std line2
     = Raise (AttributeError "erf").
Proof. split; apply calculate_probability_raises. Qed.


End ProbabilityModel.

(** ** Loops and lookups *)

Lemma for_each_total {S A : Type} (body : S -> A -> Result S) (l : list A) :
  (forall s x, In x l -> exists s', body s x = Ok s') ->
  forall s, exists s', for_each body l s = Ok s'.
Proof.
  induction l as [| x l IH]; intros Hbody s; simpl.
  - now exists s.
  - destruct (Hbody s x (or_introl eq_refl)) as [s1 H1]. rewrite H1. simpl.
    apply IH. intros s0 y Hy. apply Hbody. now right.
Qed.


Lemma for_each_raise_head {S A : Type} (body : S -> A -> Result S) x l s e :
  body s x = Raise e -> for_each body (x :: l) s = Raise e.
Proof. intros H. simpl. now rewrite H. Qed.

Lemma float_category_factor c :
  float_category c ->
  exists vf, dict_get variance_factors c = Some (VFloat (Fin vf)).
Proof. intros [-> | [-> | ->]]; simpl; eauto. Qed.

(** ** Single props and [analyze_props] *)

Section AnalyzerFacts.

Variable PlayerData : Type.
Variable RandomState : Type.
Variable np_random_normal : RandomState -> list npfloat * RandomState.
Variable call_attribute :
  string -> list Analysis.t -> npfloat -> Result (list Analysis.t).

Lemma analyze_single_prop_empty rs rs' pd prop line sport category :
  np_random_normal rs = ([], rs') ->
  _analyze_single_prop PlayerData RandomState np_random_normal rs pd prop line
    sport category = Ok (None, rs').
Proof.
  intros H. unfold _analyze_single_prop, _get_historical_data. now rewrite H.
Qed.

(** A non-empty draw never comes back as a result. *)
Lemma analyze_single_prop_nonempty rs pd prop line sport category h hs rs1 :
  np_random_normal rs = (h :: hs, rs1) ->
  exists e,
    _analyze_single_prop PlayerData RandomState np_random_normal rs pd prop
      line sport category = Raise e.
Proof.
  intros Hdraw. unfold _analyze_single_prop, _get_historical_data.
  rewrite Hdraw.
  destruct (_calculate_trend (h :: hs)) as [t | e]; simpl; [| eauto].
  destruct (dict_getitem variance_factors (PropType.category prop))
    as [v | e]; simpl; [| eauto].
  destruct (mul_variance_factor (np_std (h :: hs)) v); simpl; eauto.
Qed.

Lemma analyze_single_prop_one_sample rs rs' pd prop line sport category x :
  np_random_normal rs = ([x], rs') ->
  _analyze_single_prop PlayerData RandomState np_random_normal rs pd prop line
    sport category
  = Raise (LinAlgError "SVD did not converge in Linear Least Squares").
Proof.
  intros H. unfold _analyze_single_prop, _get_historical_data. now rewrite H.
Qed.

(** Two or more finite samples get as far as the category lookup. *)
Lemma analyze_single_prop_lookup rs rs' pd prop line sport category samples :
  np_random_normal rs = (map Fin samples, rs') ->
  (2 <= List.length samples)%nat ->
  _analyze_single_prop PlayerData RandomState np_random_normal rs pd prop line
    sport category
  = (variance_factor <-
       dict_getitem variance_factors (PropType.category prop) ;;
     adjusted_std <-
       mul_variance_factor (Fin (Spec.population_std samples)) variance_factor ;;
     Raise (AttributeError "erf")).
Proof.
  intros Hdraw Hlen.
  unfold _analyze_single_prop, _get_historical_data. rewrite Hdraw.
  destruct samples as [| x samples]; [simpl in Hlen; lia |].
  change (map Fin (x :: samples)) with (Fin x :: map Fin samples).
  cbv iota beta.
  change (Fin x :: map Fin samples) with (map Fin (x :: samples)).
  set (l := x :: samples) in *.
  assert (Hne : l <> []) by discriminate.
  unfold _calculate_trend.
  rewrite (np_std_Fin l Hne), (np_polyfit_slope_Fin l Hlen).
  cbn [bind].
  destruct (dict_getitem variance_factors (PropType.category prop)); simpl;
    [| reflexivity].
  destruct (mul_variance_factor _ _); reflexivity.
Qed.

(** With a float variance factor the failure is that of [np.erf]. *)
Lemma analyze_single_prop_erf rs rs' pd prop line sport category samples :
  np_random_normal rs = (map Fin samples, rs') ->
  (2 <= List.length samples)%nat ->
  float_category (PropType.category prop) ->
  _analyze_single_prop PlayerData RandomState np_random_normal rs pd prop line
    sport category = Raise (AttributeError "erf").
Proof.
  intros Hdraw Hlen Hc.
  rewrite (analyze_single_prop_lookup rs rs' pd prop line sport category
             samples Hdraw Hlen).
  destruct (float_category_factor _ Hc) as [vf Hvf].
  unfold dict_getitem. rewrite Hvf. reflexivity.
Qed.

Lemma analyze_line_empty_feed pd sport category prop st line :
  (forall s, fst (np_random_normal s) = []) ->
  exists st',
    analyze_line PlayerData RandomState np_random_normal pd sport category
      prop st line = Ok st'.
Proof.
  intros Hempty. destruct st as [valid rs].
  destruct line as [l |]; simpl; [| eauto].
  destruct (np_random_normal rs) as [h rs'] eqn:E.
  pose proof (Hempty rs) as H0. rewrite E in H0. simpl in H0. subst h.
  rewrite (analyze_single_prop_empty rs rs' pd prop l sport category E).
  simpl. eauto.
Qed.

Lemma first_line_raises sport categories rs rs' pd samples :
  dict_get SPORTS_PROPS sport = Some categories ->
  np_random_normal rs = (map Fin samples, rs') ->
  (2 <= List.length samples)%nat ->
  for_each
    (fun st cp =>
       for_each
         (fun st prop =>
            for_each
              (analyze_line PlayerData RandomState np_random_normal pd sport
                 (fst cp) prop)
              (candidate_lines prop) st)
         (snd cp) st)
    categories ([], rs) = Raise (AttributeError "erf").
Proof.
  intros Hs Hdraw Hlen.
  assert (Hline : forall category prop l,
             float_category (PropType.category prop) ->
             analyze_line PlayerData RandomState np_random_normal pd sport
               category prop ([], rs) (Some l) = Raise (AttributeError "erf")).
  { intros category prop l Hc. unfold analyze_line.
    now rewrite (analyze_single_prop_erf rs rs' pd prop l sport category
                   samples Hdraw Hlen Hc). }
  simpl in Hs.
  destruct (String.eqb sport "football").
  - injection Hs as <-.
    apply for_each_raise_head. cbn [snd fst].
    apply for_each_raise_head.
    change (candidate_lines
              (PropType_ "Pass Yards" "passing_yards"
                 (Some [200.5; 225.5; 250.5; 275.5; 300.5]%R) "standard"))
      with (map Some (map Fin [200.5; 225.5; 250.5; 275.5; 300.5]%R)).
    apply for_each_raise_head. apply Hline. left. reflexivity.
  - destruct (String.eqb sport "basketball"); [| discriminate].
    injection Hs as <-.
    apply for_each_raise_head. cbn [snd fst].
    apply for_each_raise_head.
    change (candidate_lines
              (PropType_ "Points" "points" (Some [15.5; 20.5; 25.5]%R)
                 "standard"))
      with (map Some (map Fin [15.5; 20.5; 25.5]%R)).
    apply for_each_raise_head. apply Hline. left. reflexivity.
Qed.

(** C1.  [analyze_props] never returns.  An unknown sport raises
    [KeyError].  For a sport of the catalog, a first history of two or more
    finite samples (the generator draws twenty) ends the call in the
    [AttributeError] of the lookup [np.erf], inside the first
    [_analyze_single_prop]; and when every history is empty the loops
    complete and the lookup of [self._filter_correlated_props], a name
    bound neither by the class body nor by [__init__], raises
    [AttributeError]: no correlation filtering ever happens. *)
Theorem analyze_props_raises rs pd sport min_correlation :
  (exists e,
      analyze_props PlayerData RandomState np_random_normal call_attribute rs
        pd sport min_correlation = Raise e)
  /\ (dict_get SPORTS_PROPS sport = None ->
      analyze_props PlayerData RandomState np_random_normal call_attribute rs
        pd sport min_correlation = Raise (KeyError sport))
  /\ (forall categories samples rs',
         dict_get SPORTS_PROPS sport = Some categories ->
         np_random_normal rs = (map Fin samples, rs') ->
         (2 <= List.length samples)%nat ->
         analyze_props PlayerData RandomState np_random_normal call_attribute
           rs pd sport min_correlation = Raise (AttributeError "erf"))
  /\ (forall categories,
         dict_get SPORTS_PROPS sport = Some categories ->
         (forall s, fst (np_random_normal s) = []) ->
         analyze_props PlayerData RandomState np_random_normal call_attribute
           rs pd sport min_correlation
         = Raise (AttributeError "_filter_correlated_props")).
Proof.
  repeat split.
  - unfold analyze_props.
    destruct (dict_getitem SPORTS_PROPS sport) as [categories | e]; simpl;
      [| eauto].
    match goal with
    | |- exists e, bind ?loop _ = _ => destruct loop as [[valid rs'] | e]
    end; simpl; eauto.
  - intros Hs. unfold analyze_props, dict_getitem. now rewrite Hs.
  - intros categories samples rs' Hs Hdraw Hlen.
    unfold analyze_props, dict_getitem. rewrite Hs. cbn [bind].
    now rewrite (first_line_raises sport categories rs rs' pd samples Hs Hdraw
                   Hlen).
  - intros categories Hs Hempty.
    unfold analyze_props, dict_getitem. rewrite Hs. cbn [bind].
    match goal with
    | |- bind (for_each ?body ?l ?s) _ = _ =>
        assert (T : exists s', for_each body l s = Ok s')
    end.
    { apply for_each_total. intros st cp _.
      apply for_each_total. intros st' prop _.
      apply for_each_total. intros st'' line _.
      now apply analyze_line_empty_feed. }
    destruct T as [[valid rs'] ->]. reflexivity.
Qed.

End AnalyzerFacts.
(** ** The model applied to a drawn history *)

Section StatModel.

Variable PlayerData : Type.
Variable RandomState : Type.
Variable np_random_normal : RandomState -> list npfloat * RandomState.

(** C4.  No probability is ever returned.  [_calculate_probability] forms
    the z-score and then looks [erf] up in the [numpy] module, which has
    no such attribute: every call raises [AttributeError], whatever the
    adjusted mean, the adjusted standard deviation and the line are.
    Hence [_analyze_single_prop], on two or more finite samples and a
    definition whose category has a float variance factor, ends in that
    error instead of storing [1 - Phi(z)]. *)
Theorem probability_never_returned :
  (forall adjusted_mean adjusted_std line,
      _calculate_probability adjusted_mean adjusted_std line
      = Raise (AttributeError "erf"))
  /\ (forall rs rs' pd prop line sport category samples,
         np_random_normal rs = (map Fin samples, rs') ->
         (2 <= List.length samples)%nat ->
         float_category (PropType.category prop) ->
         _analyze_single_prop PlayerData RandomState np_random_normal rs pd
           prop line sport category = Raise (AttributeError "erf")).
Proof.
  split.
  - exact calculate_probability_raises.
  - intros rs rs' pd prop line sport category samples.
    apply analyze_single_prop_erf.
Qed.

(** C5.  [_calculate_ev] is [p * (line / 100) - (1 - p)] with no other
    adjustment; and an analysis returned by [_analyze_single_prop], if one
    ever is, stores the expected value of its own probability and line. *)
Theorem expected_value_formula :
  (forall p line : R,
      _calculate_ev (Fin p) (Fin line) = Fin (Spec.expected_value p line))
  /\ (forall rs pd prop line sport category a rs',
         _analyze_single_prop PlayerData RandomState np_random_normal rs pd
           prop line sport category = Ok (Some a, rs') ->
         Analysis.line a = line
         /\ Analysis.ev a = _calculate_ev (Analysis.probability a) line).
Proof.
  split; [exact calculate_ev_Fin |].
  intros rs pd prop line sport category a rs'.
  unfold _analyze_single_prop, _get_historical_data.
  destruct (np_random_normal rs) as [historical rs1].
  destruct historical as [| h hs]; [discriminate |].
  destruct (_calculate_trend (h :: hs)) as [t | e]; simpl; [| discriminate].
  destruct (dict_getitem variance_factors (PropType.category prop)) as [v | e];
    simpl; [| discriminate].
  destruct (mul_variance_factor (np_std (h :: hs)) v) as [s | e]; simpl;
    discriminate.
Qed.


(** C8.  A history of exactly one sample is not skipped.  [_calculate_trend]
    raises on it, since [np.polyfit] fails on a single point; and the
    emptiness test of [_analyze_single_prop] lets such a history through, so
    the evaluation of the pair ends in that error. *)
Theorem one_sample_history_raises :
  (forall x,
      _calculate_trend [x]
      = Raise (LinAlgError "SVD did not converge in Linear Least Squares"))
  /\ (forall rs rs' pd prop line sport category x,
         np_random_normal rs = ([x], rs') ->
         _analyze_single_prop PlayerData RandomState np_random_normal rs pd
           prop line sport category
         = Raise (LinAlgError "SVD did not converge in Linear Least Squares")).
Proof.
  split.
  - intros x. reflexivity.
  - intros rs rs' pd prop line sport category x.
    apply analyze_single_prop_one_sample.
Qed.

End StatModel.

(** With twenty samples, as the generator draws them, the first analysis of
    a football player ends the whole call. *)
Example analyze_props_twenty_samples :
  analyze_props unit unit (constant_feed (map Fin (repeat 50%R 20)))
    (fun _ _ _ => Ok []) tt tt "football" (Fin (-0.2))
  = Raise (AttributeError "erf").
Proof.
  apply (first_line_raises unit unit (constant_feed (map Fin (repeat 50%R 20)))
           "football" _ tt tt tt (repeat 50%R 20) eq_refl eq_refl).
  simpl. lia.
Qed.

Lemma probability_never_returned_witness :
  _analyze_single_prop unit unit (constant_feed (map Fin [0; 2]%R)) tt tt
    points_prop (Fin 3) "basketball" "scoring" = Raise (AttributeError "erf").
Proof.
  apply (proj2 (probability_never_returned unit unit
                  (constant_feed (map Fin [0; 2]%R)))
           tt tt tt points_prop (Fin 3) "basketball" "scoring" [0; 2]%R).
  - reflexivity.
  - simpl. lia.
  - left. reflexivity.
Defined.

Lemma expected_value_formula_witness :
  _calculate_ev (Fin 0.9) (Fin 25.5) = Fin (Spec.expected_value 0.9 25.5).
Proof.
  exact (proj1 (expected_value_formula unit unit (constant_feed []))
           0.9%R 25.5%R).
Defined.



Lemma one_sample_history_raises_witness :
  _analyze_single_prop unit unit (constant_feed [Fin 5]) tt tt points_prop
    (Fin 15.5) "basketball" "scoring"
  = Raise (LinAlgError "SVD did not converge in Linear Least Squares").
Proof.
  apply (proj2 (one_sample_history_raises unit unit (constant_feed [Fin 5]))
           tt tt tt points_prop (Fin 15.5) "basketball" "scoring" (Fin 5)).
  reflexivity.
Defined.
(** ** The parlay search *)



Lemma Subseq_nil_l {A : Type} (l : list A) : Subseq [] l.
Proof. induction l; constructor; assumption. Qed.

Lemma combinations_Subseq {A : Type} (l : list A) :
  forall r c, In c (combinations l r) -> Subseq c l.
Proof.
  induction l as [| x t IH]; intros [| r] c H; simpl in H.
  - destruct H as [<- | []]. constructor.
  - contradiction.
  - destruct H as [<- | []]. apply Subseq_nil_l.
  - apply in_app_or in H. destruct H as [H | H].
    + apply in_map_iff in H. destruct H as [c' [<- Hc']].
      constructor. now apply (IH r).
    + constructor. now apply (IH (S r)).
Qed.



Lemma for_each_consider_combo min_probability combos parlays :
  for_each (consider_combo min_probability) combos parlays
  = match combos with
    | [] => Ok parlays
    | _ :: _ => Raise (KeyError "probability")
    end.
Proof. destruct combos; reflexivity. Qed.

(** C2.  The filtering step raises for every combination it is given:
    [_analyze_parlay] stores the joint probability under
    ['combined_probability'] and the filter reads ['probability'], so the
    lookup fails with [KeyError]; for two props and the default bounds the
    whole search ends in that exception. *)
Theorem filtering_step_raises :
  (forall min_probability parlays combo,
      dict_get (_analyze_parlay combo) "probability" = None
      /\ consider_combo min_probability parlays combo
         = Raise (KeyError "probability"))
  /\ (forall a b min_probability,
         generate_optimal_parlays [a; b] 2 5 min_probability
         = Raise (KeyError "probability")).
Proof.
  split.
  - intros. split; reflexivity.
  - intros. reflexivity.
Qed.



(** ** Total correlation and joint probability *)

Lemma fold_fadd_filter {B : Type} (f : B -> npfloat) (P : B -> bool)
    (L : list B) :
  (forall x, In x L -> P x = false -> f x = Fin 0) ->
  forall a,
    fold_left fadd (map f (filter P L)) a = fold_left fadd (map f L) a.
Proof.
  induction L as [| x L IH]; intros H a; simpl; [reflexivity |].
  destruct (P x) eqn:E; simpl.
  - apply IH. intros y Hy. apply H. now right.
  - rewrite (H x (or_introl eq_refl) E), fadd_0_r.
    apply IH. intros y Hy. apply H. now right.
Qed.

Lemma fold_fadd_flat_map {B : Type} (h : B -> list npfloat) (L : list B) :
  forall a,
    fold_left fadd (flat_map h L) a
    = fold_left (fun acc x => fold_left fadd (h x) acc) L a.
Proof.
  induction L as [| x L IH]; intros a; simpl; [reflexivity |].
  rewrite fold_left_app. apply IH.
Qed.

Lemma fold_left_ext_in {S B : Type} (f g : S -> B -> S) (L : list B) :
  (forall a x, In x L -> f a x = g a x) ->
  forall a, fold_left f L a = fold_left g L a.
Proof.
  induction L as [| x L IH]; intros H a; simpl; [reflexivity |].
  rewrite (H a x (or_introl eq_refl)). apply IH.
  intros b y Hy. apply H. now right.
Qed.

Lemma fold_left_map {S B C : Type} (f : S -> C -> S) (g : B -> C)
    (L : list B) :
  forall a, fold_left f (map g L) a = fold_left (fun acc x => f acc (g x)) L a.
Proof. induction L as [| x L IH]; intros a; simpl; [reflexivity | apply IH]. Qed.

Lemma football_passing_table :
  football_passing
  = [ (("passing_yards", "pass_attempts"), Fin 0.8);
      (("passing_yards", "pass_completions"), Fin 0.85);
      (("pass_attempts", "pass_completions"), Fin 0.9) ].
Proof. reflexivity. Qed.

(** No statistic key is paired with itself in the table. *)
Lemma coefficient_diagonal k :
  tuple_dict_get football_passing (k, k) (Fin 0) = Fin 0.
Proof.
  rewrite football_passing_table. simpl.
  destruct (String.eqb_spec k "passing_yards") as [-> | _]; simpl.
  - reflexivity.
  - destruct (String.eqb_spec k "pass_attempts") as [-> | _]; reflexivity.
Qed.

(** The table stores a pair of keys under one order only. *)
Lemma coefficient_one_orientation k1 k2 :
  tuple_dict_get football_passing (k1, k2) (Fin 0) = Fin 0
  \/ tuple_dict_get football_passing (k2, k1) (Fin 0) = Fin 0.
Proof.
  rewrite football_passing_table. simpl.
  repeat match goal with
         | |- context [String.eqb ?a ?b] =>
             destruct (String.eqb_spec a b); simpl
         end;
    auto; congruence.
Qed.

Lemma analysis_eqb_stat_key p p2 :
  analysis_eqb p p2 = true -> Analysis.stat_key p = Analysis.stat_key p2.
Proof.
  unfold analysis_eqb. rewrite !andb_true_iff.
  intros [_ H]. now apply String.eqb_eq.
Qed.

Lemma indexed_snd {A : Type} (l : list A) : map snd (Spec.indexed l) = l.
Proof.
  unfold Spec.indexed. generalize 0%nat.
  induction l as [| x l IH]; intros s; simpl; [reflexivity |].
  now rewrite IH.
Qed.

Lemma indexed_functional {A : Type} (l : list A) ip jp :
  In ip (Spec.indexed l) -> In jp (Spec.indexed l) ->
  fst ip = fst jp -> snd ip = snd jp.
Proof.
  unfold Spec.indexed. generalize 0%nat.
  induction l as [| x l IH]; intros s Hi Hj E; simpl in *; [contradiction |].
  assert (Htail : forall kp, In kp (combine (seq (S s) (List.length l)) l) ->
                             (S s <= fst kp)%nat).
  { intros [k y] Hk. apply in_combine_l in Hk. apply in_seq in Hk. simpl. lia. }
  destruct Hi as [<- | Hi]; destruct Hj as [<- | Hj]; simpl in *.
  - reflexivity.
  - apply Htail in Hj. lia.
  - apply Htail in Hi. lia.
  - exact (IH (S s) Hi Hj E).
Qed.

(** The double loop of the code and the sum over ordered pairs of distinct
    positions are the same sum: a pair skipped by either has equal keys, and
    the table has no entry for a key paired with itself. *)
Lemma total_correlation_ordered_pairs props :
  _calculate_total_correlation props = Spec.ordered_total_correlation props.
Proof.
  unfold _calculate_total_correlation, Spec.ordered_total_correlation,
    Spec.ordered_pairs, fsum.
  set (c := fun p p2 : Analysis.t =>
              tuple_dict_get football_passing
                (Analysis.stat_key p, Analysis.stat_key p2) (Fin 0)).
  transitivity
    (fold_left (fun acc p => fold_left fadd (map (c p) props) acc) props
       (Fin 0)).
  - rewrite fold_fadd_flat_map. apply fold_left_ext_in. intros a p _.
    apply (fold_fadd_filter (c p)). intros p2 _ E.
    apply negb_false_iff in E. apply analysis_eqb_stat_key in E.
    unfold c. rewrite E. apply coefficient_diagonal.
  - set (F := fun acc p => fold_left fadd (map (c p) props) acc).
    replace (fold_left F props (Fin 0))
      with (fold_left F (map snd (Spec.indexed props)) (Fin 0))
      by (now rewrite indexed_snd).
    rewrite fold_left_map.
    rewrite flat_map_concat_map, concat_map, map_map, <- flat_map_concat_map.
    rewrite fold_fadd_flat_map.
    apply fold_left_ext_in. intros a ip Hip. unfold F.
    rewrite map_map. cbn [fst snd]. fold (c (snd ip)).
    symmetry.
    rewrite (fold_fadd_filter (fun x : nat * Analysis.t => c (snd ip) (snd x))).
    + rewrite <- (indexed_snd props) at 2. now rewrite map_map.
    + intros jp Hjp E. apply negb_false_iff in E. apply Nat.eqb_eq in E.
      unfold c. rewrite (indexed_functional props ip jp Hip Hjp E).
      apply coefficient_diagonal.
Qed.

Lemma combined_probability_Fin probs tc :
  _calculate_combined_probability (map Fin probs) (Fin tc)
  = Fin (Spec.Rproduct probs * (1 + tc))%R.
Proof.
  unfold _calculate_combined_probability.
  rewrite fold_left_fmul_Fin. simpl. f_equal. lra.
Qed.

(** C6, counterexample.  For a passing-yards leg and a pass-attempts leg,
    whose pair has the recorded coefficient 0.8, the code's total
    correlation is 0.8: the pair is counted once, not once per order
    (which would give 1.6). *)
Lemma total_correlation_counted_once :
  _calculate_total_correlation [yards_leg; attempts_leg] = Fin 0.8
  /\ Spec.total_correlation [yards_leg; attempts_leg] = Fin 1.6
  /\ _calculate_total_correlation [yards_leg; attempts_leg]
     <> Spec.total_correlation [yards_leg; attempts_leg].
Proof.
  assert (C : _calculate_total_correlation [yards_leg; attempts_leg] = Fin 0.8).
  { rewrite total_correlation_ordered_pairs.
    unfold Spec.ordered_total_correlation, fsum. simpl. f_equal. lra. }
  assert (S : Spec.total_correlation [yards_leg; attempts_leg] = Fin 1.6).
  { unfold Spec.total_correlation, fsum. simpl. f_equal. lra. }
  repeat split; try assumption.
  rewrite C, S. intros H. injection H as H. lra.
Qed.

(** C6, as amended.  The total correlation is the sum, over all ordered
    pairs of distinct legs, of the coefficient stored under that order of
    their statistic keys ([0] when there is none); the table stores a pair of
    keys under one order only, so an unordered pair contributes at most
    once; and the joint probability is the product of the leg probabilities
    times [1 + total correlation]. *)
Theorem total_correlation_and_combined_probability :
  (forall props,
      _calculate_total_correlation props = Spec.ordered_total_correlation props)
  /\ (forall k1 k2,
         tuple_dict_get football_passing (k1, k2) (Fin 0) = Fin 0
         \/ tuple_dict_get football_passing (k2, k1) (Fin 0) = Fin 0)
  /\ (forall probs tc,
         _calculate_combined_probability (map Fin probs) (Fin tc)
         = Fin (Spec.Rproduct probs * (1 + tc))%R)
  /\ (forall props,
         dict_get (_analyze_parlay props) "combined_probability"
         = Some (PyFloat
                   (_calculate_combined_probability
                      (map Analysis.probability props)
                      (_calculate_total_correlation props)))).
Proof.
  split; [exact total_correlation_ordered_pairs |].
  split; [exact coefficient_one_orientation |].
  split; [exact combined_probability_Fin |].
  intros props. reflexivity.
Qed.

(** ** Concrete runs *)

(** [itertools.combinations('abc', 2)] gives [ab], [ac], [bc]. *)
Example combinations_abc :
  combinations ["a"; "b"; "c"] 2 = [["a"; "b"]; ["a"; "c"]; ["b"; "c"]].
Proof. reflexivity. Qed.

Example py_range_2_6 : py_range 2 (5 + 1) = [2; 3; 4; 5]%Z.
Proof. reflexivity. Qed.

(** Two legs whose keys have no table entry, with probabilities 0.9 and 0.9
    and expected values 0.1 and 0.2: the joint probability is 0.81 and the
    combined expected value 0.3. *)
Example independent_pair_parlay :
  let leg (name key : string) (e : R) :=
    {| Analysis.prop_name := name;
       Analysis.line := Fin 20.5;
       Analysis.probability := Fin 0.9;
       Analysis.ev := Fin e;
       Analysis.trend := Fin 0;
       Analysis.category := "scoring";
       Analysis.stat_key := key |} in
  _analyze_parlay [leg "Points" "points" 0.1%R; leg "Rebounds" "rebounds" 0.2%R]
  = [ ("combined_probability", PyFloat (Fin 0.81));
      ("ev", PyFloat (Fin 0.3));
      ("props", PyList ["Points"; "Rebounds"]) ].
Proof.
  intros leg. unfold _analyze_parlay.
  rewrite total_correlation_ordered_pairs.
  unfold Spec.ordered_total_correlation, _calculate_combined_probability,
    _calculate_combined_ev, fsum.
  simpl.
  repeat (f_equal; try lra).
Qed.

(** * Further properties of the code *)

(** ** Edge behaviour of the parlay search *)

Lemma py_range_empty a b : (b <= a)%Z -> py_range a b = [].
Proof.
  intros H. unfold py_range.
  replace (Z.to_nat (b - a)) with 0%nat by lia. reflexivity.
Qed.

Lemma py_range_cons a b : (a < b)%Z -> py_range a b = a :: py_range (a + 1) b.
Proof.
  intros H. unfold py_range.
  replace (Z.to_nat (b - a)) with (S (Z.to_nat (b - (a + 1)))) by lia.
  simpl. f_equal; [lia |].
  rewrite <- seq_shift, map_map. apply map_ext. intros i. lia.
Qed.

Lemma combinations_nonempty {A : Type} (l : list A) :
  forall r, (r <= List.length l)%nat -> combinations l r <> [].
Proof.
  induction l as [| x t IH]; intros [| r] H; simpl in *; try discriminate.
  - lia.
  - intros E. apply app_eq_nil in E. destruct E as [E _].
    apply map_eq_nil in E. exact (IH r ltac:(lia) E).
Qed.



(** X2.  Whenever [0 <= min_picks <= max_picks] and there are at least
    [min_picks] props, the search ends in [KeyError('probability')]: a
    combination of the first size exists and its filter lookup fails,
    whatever the props and [min_probability] are. *)
Theorem search_stops_at_first_combination valid_props min_picks max_picks
    min_probability :
  (0 <= min_picks <= max_picks)%Z ->
  (min_picks <= Z.of_nat (List.length valid_props))%Z ->
  generate_optimal_parlays valid_props min_picks max_picks min_probability
  = Raise (KeyError "probability").
Proof.
  intros Hrange Hlen. unfold generate_optimal_parlays.
  rewrite py_range_cons by lia. simpl for_each.
  unfold itertools_combinations.
  destruct (Z.ltb_spec min_picks 0) as [Hneg | _]; [lia |]. simpl bind at 2.
  rewrite for_each_consider_combo.
  destruct (combinations valid_props (Z.to_nat min_picks)) as [| c cs] eqn:E.
  - exfalso. revert E. apply combinations_nonempty. lia.
  - reflexivity.
Qed.

Lemma search_stops_at_first_combination_witness :
  generate_optimal_parlays [yards_leg; attempts_leg; yards_leg] 1 3 (Fin 0)
  = Raise (KeyError "probability").
Proof. apply search_stops_at_first_combination; simpl; lia. Defined.

(** X3.  With [max_picks] below [min_picks] the range of sizes is empty and
    the search returns the empty list, also for a negative [min_picks]. *)
Theorem empty_pick_range valid_props min_picks max_picks min_probability :
  (max_picks < min_picks)%Z ->
  generate_optimal_parlays valid_props min_picks max_picks min_probability
  = Ok [].
Proof.
  intros H. unfold generate_optimal_parlays.
  rewrite py_range_empty by lia. reflexivity.
Qed.

Lemma empty_pick_range_witness :
  generate_optimal_parlays [yards_leg; attempts_leg] 3 2 (Fin 0.85) = Ok [].
Proof. apply empty_pick_range. lia. Defined.

(** X19.  The search returns only the empty list, and only when no size of
    the range has a combination at all: any combination reaching the filter
    ends the call. *)
Theorem search_returns_only_empty valid_props min_picks max_picks
    min_probability parlays :
  generate_optimal_parlays valid_props min_picks max_picks min_probability
  = Ok parlays ->
  parlays = []
  /\ forall n,
      In n (py_range min_picks (max_picks + 1)) ->
      itertools_combinations valid_props n = Ok [].
Proof.
  unfold generate_optimal_parlays.
  generalize (py_range min_picks (max_picks + 1)) as ns.
  assert (L : forall ns found,
             for_each
               (fun parlays n =>
                  combos <- itertools_combinations valid_props n ;;
                  for_each (consider_combo min_probability) combos parlays)
               ns [] = Ok found ->
             found = []
             /\ forall n, In n ns -> itertools_combinations valid_props n = Ok []).
  { induction ns as [| n ns IH]; intros found H; simpl in H.
    - injection H as <-. split; [reflexivity | intros n []].
    - destruct (itertools_combinations valid_props n) as [combos | e] eqn:E;
        simpl in H; [| discriminate].
      rewrite for_each_consider_combo in H.
      destruct combos as [| c cs]; simpl in H; [| discriminate].
      destruct (IH found H) as [-> Hv]. split; [reflexivity |].
      intros m [<- | Hm]; [exact E | now apply Hv]. }
  intros ns H.
  destruct (for_each _ ns []) as [found |] eqn:E; simpl in H; [| discriminate].
  destruct (L ns found E) as [-> Hv]. simpl in H. injection H as <-.
  split; [reflexivity | exact Hv].
Qed.

Lemma search_returns_only_empty_witness :
  itertools_combinations [yards_leg; attempts_leg] 3 = Ok [].
Proof.
  apply (search_returns_only_empty [yards_leg; attempts_leg] 3 5 (Fin 0.85) []).
  - reflexivity.
  - simpl. tauto.
Defined.

(** ** The combinations enumerated *)

Lemma Subseq_In {A : Type} (c l : list A) :
  Subseq c l -> forall y, In y c -> In y l.
Proof.
  induction 1 as [| x s l _ IH | x s l _ IH]; intros y Hy; simpl in *.
  - contradiction.
  - destruct Hy as [-> | Hy]; [now left | right; now apply IH].
  - right. now apply IH.
Qed.

Lemma combinations_NoDup {A : Type} (l : list A) :
  NoDup l -> forall r, NoDup (combinations l r).
Proof.
  induction 1 as [| x t Hx Ht IH]; intros [| r]; simpl.
  - repeat constructor. intros [].
  - constructor.
  - repeat constructor. intros [].
  - apply NoDup_app.
    + apply Injective_map_NoDup; [| apply IH].
      intros a b E. now injection E.
    + apply IH.
    + intros c Hc1 Hc2. apply in_map_iff in Hc1. destruct Hc1 as [c' [<- _]].
      apply combinations_Subseq in Hc2. apply Hx.
      apply (Subseq_In _ _ Hc2). now left.
Qed.





(** X6.  When the props are pairwise different, no combination of a given
    size is produced twice. *)
Theorem no_combination_twice {A : Type} (valid_props : list A) n combos :
  NoDup valid_props ->
  itertools_combinations valid_props n = Ok combos ->
  NoDup combos.
Proof.
  intros H. unfold itertools_combinations.
  destruct (n <? 0)%Z; [discriminate |].
  intros E. injection E as <-. now apply combinations_NoDup.
Qed.

Lemma no_combination_twice_witness :
  NoDup [[yards_leg]; [attempts_leg]].
Proof.
  apply (no_combination_twice [yards_leg; attempts_leg] 1
           [[yards_leg]; [attempts_leg]]); [| reflexivity].
  repeat constructor; simpl; intuition discriminate.
Defined.

(** ** The expected value *)

Section ExpectedValue.

Local Open Scope R_scope.

(** X8.  For a line above -100 the expected value is non-negative exactly
    when the probability is at least [100 / (line + 100)]. *)
Theorem expected_value_break_even p line :
  0 < line + 100 ->
  (fgeb (_calculate_ev (Fin p) (Fin line)) (Fin 0) = true
   <-> 100 / (line + 100) <= p).
Proof.
  intros Hl. rewrite calculate_ev_Fin. unfold fgeb, fleb, Spec.expected_value.
  assert (E : p * (line / 100) - (1 - p)
              = (line + 100) / 100 * (p - 100 / (line + 100))).
  { field. lra. }
  assert (P : 0 < (line + 100) / 100) by lra.
  destruct (Rle_dec _ _) as [Y | N]; split; intros H; try reflexivity;
    try discriminate.
  - rewrite E in Y. nra.
  - exfalso. apply N. rewrite E. nra.
Qed.

Lemma expected_value_break_even_witness :
  fgeb (_calculate_ev (Fin 0.9) (Fin 25.5)) (Fin 0) = true.
Proof.
  apply (expected_value_break_even 0.9 25.5); [lra |].
  apply Rmult_le_reg_r with (r := 25.5 + 100); [lra |].
  unfold Rdiv. rewrite Rmult_assoc, Rinv_l by lra. lra.
Defined.

End ExpectedValue.

(** ** Trends *)

Section Trends.

Local Open Scope R_scope.

Lemma Rsum_affine (a b : R) (L : list nat) :
  Spec.Rsum (map (fun i => a + b * INR i) L)
  = a * INR (List.length L) + b * Spec.Rsum (map INR L).
Proof.
  induction L as [| i L IH]; [simpl; lra |].
  change (List.length (i :: L)) with (S (List.length L)). rewrite S_INR.
  simpl. rewrite IH. lra.
Qed.

Lemma Rsum_index_affine (a b : R) (L : list nat) :
  Spec.Rsum
    (map (fun p => fst p * snd p)
       (combine (map INR L) (map (fun i => a + b * INR i) L)))
  = a * Spec.Rsum (map INR L)
    + b * Spec.Rsum (map (fun i => i * i) (map INR L)).
Proof. induction L as [| i L IH]; simpl; [lra | rewrite IH; lra]. Qed.

Lemma ols_slope_affine a b n :
  (2 <= n)%nat ->
  Spec.ols_slope (map (fun i => a + b * INR i) (seq 0 n)) = b.
Proof.
  intros Hn. unfold Spec.ols_slope.
  rewrite length_map, length_seq, Rsum_affine, Rsum_index_affine, length_seq.
  pose proof (ols_denominator_pos n Hn) as D.
  unfold index_sum, index_square_sum in D.
  set (s1 := Spec.Rsum (map INR (seq 0 n))) in *.
  set (s2 := Spec.Rsum (map (fun i => i * i) (map INR (seq 0 n)))) in *.
  field. lra.
Qed.

(** X9.  The trend of a history that grows by the same step [b] from one
    sample to the next ([a], [a + b], [a + 2b], ...; two samples or more)
    is exactly [b]. *)

Theorem trend_of_linear_history a b n :
  (2 <= n)%nat ->
  _calculate_trend (map Fin (map (fun i => a + b * INR i) (seq 0 n)))
  = Ok (Fin b).
Proof.
  intros Hn. unfold _calculate_trend.
  rewrite np_polyfit_slope_Fin by (now rewrite length_map, length_seq).
  do 2 f_equal. now apply ols_slope_affine.
Qed.

Lemma trend_of_linear_history_witness :
  _calculate_trend
    (map Fin (map (fun i => 10 + 2.5 * INR i) (seq 0 4))) = Ok (Fin 2.5).
Proof. apply trend_of_linear_history. lia. Defined.

End Trends.

(** ** Correlation and the joint probability *)

Section ParlayFacts.

Local Open Scope R_scope.

Lemma coefficient_Fin k1 k2 :
  tuple_dict_get football_passing (k1, k2) (Fin 0) = Fin (coefficient k1 k2)
  /\ 0 <= coefficient k1 k2.
Proof.
  unfold coefficient. rewrite football_passing_table. simpl.
  repeat match goal with
         | |- context [String.eqb ?a ?b] =>
             destruct (String.eqb_spec a b); simpl
         end;
    (split; [reflexivity | lra]).
Qed.

Lemma coefficient_leading k1 k2 :
  leading_key k1 = false -> coefficient k1 k2 = 0.
Proof.
  unfold leading_key, coefficient. rewrite football_passing_table.
  intros H. apply orb_false_iff in H. destruct H as [H1 H2].
  simpl. rewrite H1, H2. reflexivity.
Qed.

Lemma Rsum_nonneg l : Forall (fun x => 0 <= x) l -> 0 <= Spec.Rsum l.
Proof. induction 1; simpl; lra. Qed.

Lemma Rsum_zero l : Forall (fun x => x = 0) l -> Spec.Rsum l = 0.
Proof. induction 1; simpl; lra. Qed.

Lemma Rproduct_nonneg l : Forall (fun x => 0 <= x) l -> 0 <= Spec.Rproduct l.
Proof. induction 1; simpl; [lra | now apply Rmult_le_pos]. Qed.

Lemma map_flat_map {A B C : Type} (f : B -> C) (g : A -> list B) l :
  map f (flat_map g l) = flat_map (fun x => map f (g x)) l.
Proof.
  induction l as [| x l IH]; simpl; [reflexivity |].
  now rewrite map_app, IH.
Qed.

Lemma flat_map_Forall {A B : Type} (P : B -> Prop) (f : A -> list B) l :
  (forall x, In x l -> Forall P (f x)) -> Forall P (flat_map f l).
Proof.
  induction l as [| x l IH]; intros H; simpl; [constructor |].
  apply Forall_app. split; [apply H; now left |].
  apply IH. intros y Hy. apply H. now right.
Qed.

(** The pairs that the code sums over, with the entries as reals. *)
Lemma total_correlation_Rsum props :
  _calculate_total_correlation props
  = Fin (Spec.Rsum
           (flat_map
              (fun p =>
                 map (fun p2 =>
                        coefficient (Analysis.stat_key p) (Analysis.stat_key p2))
                   (filter (fun p2 => negb (analysis_eqb p p2)) props))
              props)).
Proof.
  unfold _calculate_total_correlation. rewrite <- fsum_Fin. f_equal.
  rewrite map_flat_map.
  apply flat_map_ext. intros p. rewrite map_map. apply map_ext. intros p2.
  apply coefficient_Fin.
Qed.

Lemma total_correlation_nonnegative props :
  exists t, _calculate_total_correlation props = Fin t /\ 0 <= t.
Proof.
  rewrite total_correlation_Rsum. eexists. split; [reflexivity |].
  apply Rsum_nonneg. apply flat_map_Forall. intros p _.
  apply Forall_map. apply Forall_forall. intros p2 _. apply coefficient_Fin.
Qed.

(** X11.  The correlation adjustment never lowers a joint probability: for
    legs with finite non-negative probabilities the combined probability is
    a finite number not below the plain product of the leg probabilities,
    whatever the statistic keys are. *)
Theorem correlation_never_lowers props probs :
  map Analysis.probability props = map Fin probs ->
  Forall (fun p => 0 <= p) probs ->
  exists c,
    _calculate_combined_probability (map Analysis.probability props)
      (_calculate_total_correlation props) = Fin c
    /\ Spec.Rproduct probs <= c.
Proof.
  intros E Hp.
  destruct (total_correlation_nonnegative props) as [t [-> Ht]].
  rewrite E, combined_probability_Fin. eexists. split; [reflexivity |].
  pose proof (Rproduct_nonneg _ Hp). nra.
Qed.

Lemma correlation_never_lowers_witness :
  exists c,
    _calculate_combined_probability
      (map Analysis.probability [yards_leg; attempts_leg])
      (_calculate_total_correlation [yards_leg; attempts_leg]) = Fin c
    /\ Spec.Rproduct [0.9; 0.9] <= c.
Proof.
  apply (correlation_never_lowers [yards_leg; attempts_leg] [0.9; 0.9]).
  - reflexivity.
  - repeat constructor; lra.
Defined.

(** X12.  When no leg has the statistic key [passing_yards] or
    [pass_attempts], the total correlation is 0 and the stored joint
    probability is the plain product of the leg probabilities. *)
Theorem unrelated_legs_uncorrelated props :
  Forall (fun p => leading_key (Analysis.stat_key p) = false) props ->
  _calculate_total_correlation props = Fin 0
  /\ forall probs,
      map Analysis.probability props = map Fin probs ->
      dict_get (_analyze_parlay props) "combined_probability"
      = Some (PyFloat (Fin (Spec.Rproduct probs))).
Proof.
  intros H.
  assert (T : _calculate_total_correlation props = Fin 0).
  { rewrite total_correlation_Rsum. f_equal. apply Rsum_zero.
    apply flat_map_Forall. intros p Hp.
    apply Forall_map. apply Forall_forall. intros p2 _.
    apply coefficient_leading.
    rewrite Forall_forall in H. now apply H. }
  split; [exact T |].
  intros probs E. unfold _analyze_parlay. simpl dict_get.
  rewrite T, E, combined_probability_Fin. do 3 f_equal. lra.
Qed.

Lemma unrelated_legs_uncorrelated_witness :
  _calculate_total_correlation [points_leg; rebounds_leg] = Fin 0
  /\ forall probs,
      map Analysis.probability [points_leg; rebounds_leg] = map Fin probs ->
      dict_get (_analyze_parlay [points_leg; rebounds_leg])
        "combined_probability"
      = Some (PyFloat (Fin (Spec.Rproduct probs))).
Proof.
  apply (unrelated_legs_uncorrelated [points_leg; rebounds_leg]).
  repeat constructor.
Defined.

End ParlayFacts.

(** ** Skipped pairs and errors of the variance-factor lookup *)

Section LookupErrors.

Variable PlayerData : Type.
Variable RandomState : Type.
Variable np_random_normal : RandomState -> list npfloat * RandomState.

(** X18.  The evaluator skips a pair, returning no analysis and raising
    nothing, exactly when its historical series is empty. *)
Theorem skipped_iff_no_history rs pd prop line sport category :
  (exists rs',
      _analyze_single_prop PlayerData RandomState np_random_normal rs pd prop
        line sport category = Ok (None, rs'))
  <-> fst (np_random_normal rs) = [].
Proof.
  split.
  - intros [rs' H].
    destruct (np_random_normal rs) as [historical rs1] eqn:Hdraw.
    destruct historical as [| h hs]; [reflexivity |].
    exfalso.
    destruct (analyze_single_prop_nonempty _ _ _ rs pd prop line sport
                category h hs rs1 Hdraw) as [e He].
    rewrite He in H. discriminate.
  - intros Hempty. unfold _analyze_single_prop, _get_historical_data.
    destruct (np_random_normal rs) as [historical rs1]. simpl in Hempty.
    subst historical. now exists rs1.
Qed.

(** X14.  On a history of two or more finite samples, a prop whose category
    has no entry in [variance_factors] raises [KeyError] with that
    category. *)
Theorem unknown_category_raises rs rs' pd prop line sport category samples :
  np_random_normal rs = (map Fin samples, rs') ->
  (2 <= List.length samples)%nat ->
  dict_get variance_factors (PropType.category prop) = None ->
  _analyze_single_prop PlayerData RandomState np_random_normal rs pd prop line
    sport category = Raise (KeyError (PropType.category prop)).
Proof.
  intros Hdraw Hlen H.
  rewrite (analyze_single_prop_lookup _ _ _ rs rs' pd prop line sport category
             samples Hdraw Hlen).
  unfold dict_getitem. now rewrite H.
Qed.

(** X15.  On a history of two or more finite samples, a prop of category
    ['parlays'] raises [TypeError]: that entry of [variance_factors] is a
    dict, which cannot scale the standard deviation. *)
Theorem parlays_category_raises rs rs' pd prop line sport category samples :
  np_random_normal rs = (map Fin samples, rs') ->
  (2 <= List.length samples)%nat ->
  PropType.category prop = "parlays" ->
  exists msg,
    _analyze_single_prop PlayerData RandomState np_random_normal rs pd prop
      line sport category = Raise (TypeError msg).
Proof.
  intros Hdraw Hlen Hc.
  rewrite (analyze_single_prop_lookup _ _ _ rs rs' pd prop line sport category
             samples Hdraw Hlen).
  rewrite Hc. simpl. eauto.
Qed.

End LookupErrors.

Lemma skipped_iff_no_history_witness :
  exists rs',
    _analyze_single_prop unit unit (constant_feed []) tt tt points_prop
      (Fin 15.5) "basketball" "scoring" = Ok (None, rs').
Proof.
  apply (skipped_iff_no_history unit unit (constant_feed []) tt tt points_prop
           (Fin 15.5) "basketball" "scoring").
  reflexivity.
Defined.

Lemma unknown_category_raises_witness :
  _analyze_single_prop unit unit (constant_feed (map Fin [5; 6]%R)) tt tt
    uncategorised_prop (Fin 1.5) "basketball" "scoring"
  = Raise (KeyError "defense").
Proof.
  apply (unknown_category_raises unit unit (constant_feed (map Fin [5; 6]%R))
           tt tt tt uncategorised_prop (Fin 1.5) "basketball" "scoring"
           [5; 6]%R).
  - reflexivity.
  - simpl. lia.
  - reflexivity.
Defined.

Lemma parlays_category_raises_witness :
  exists msg,
    _analyze_single_prop unit unit (constant_feed (map Fin [5; 6]%R)) tt tt
      parlays_prop (Fin 1.5) "basketball" "scoring" = Raise (TypeError msg).
Proof.
  apply (parlays_category_raises unit unit (constant_feed (map Fin [5; 6]%R))
           tt tt tt parlays_prop (Fin 1.5) "basketball" "scoring" [5; 6]%R).
  - reflexivity.
  - simpl. lia.
  - reflexivity.
Defined.
